(** * Type attributes for the game-object C# renderer

    A shallow embedding of the final revision of the quicktype custom
    C# example (the script that declares [GameObjectTypeAttributeKind],
    [DefaultValueTypeAttributeKind], the two attribute producers and
    [GameCSharpRenderer]), together with the properties its design
    document states about them, and further properties of the same
    code, of the renderer of the revision before it and of the script's
    command line.

    Conventions of the embedding:
    - a JavaScript value that came out of [JSON.parse] is a [json] tree;
      arrays and objects carry the identity of their allocation, because
      [===] compares them by identity;
    - [any] is [option json]: [None] is JavaScript's [undefined];
    - a function that may [throw] returns a [completion];
    - numbers are the integers, on which [===] is equality; the text of
      a number is modelled for the safe integers only
      ([in_number_domain]), where [toString] is the decimal numeral, and
      every statement about that text assumes the value is in that
      domain. *)

From Stdlib Require Import ZArith List String Ascii Bool Permutation.
From stdpp Require Import gmap strings pretty.
Import ListNotations.
Open Scope string_scope.
Open Scope list_scope.
Set Warnings "-register-all".

(** ** JavaScript values *)

Inductive json : Type :=
| JNull
| JBool (b : bool)
| JNumber (n : Z)
| JString (s : string)
| JArray (ref : nat) (elems : list json)
| JObject (ref : nat) (props : list (string * json)).

(** [undefined] is [None]. *)
Definition any : Type := option json.
Definition undefined : any := None.

(** A thrown [Error] with its message. *)
Inductive exn : Type :=
| Error (message : string).

Definition message_of (e : exn) : string :=
  match e with Error m => m end.

Inductive completion (T : Type) : Type :=
| Return (v : T)
| Throw (e : exn).
Arguments Return {T} v.
Arguments Throw {T} e.

(** [o.k] on a plain object: the value stored under the own key [k],
    [undefined] when there is none.  The list of an object holds its
    own properties in the order in which JavaScript enumerates them. *)
Fixpoint getProperty (k : string) (props : list (string * json)) : any :=
  match props with
  | [] => undefined
  | (k', v) :: rest => if String.eqb k k' then Some v else getProperty k rest
  end.

(** The [typeof] operator. *)
Definition typeof (v : any) : string :=
  match v with
  | None => "undefined"
  | Some JNull => "object"
  | Some (JBool _) => "boolean"
  | Some (JNumber _) => "number"
  | Some (JString _) => "string"
  | Some (JArray _ _) => "object"
  | Some (JObject _ _) => "object"
  end.

(** [===] on values: scalars by value, arrays and objects by identity. *)
Definition strict_equal_json (a b : json) : bool :=
  match a, b with
  | JNull, JNull => true
  | JBool x, JBool y => Bool.eqb x y
  | JNumber x, JNumber y => Z.eqb x y
  | JString x, JString y => String.eqb x y
  | JArray r _, JArray r' _ => Nat.eqb r r'
  | JObject r _, JObject r' _ => Nat.eqb r r'
  | _, _ => false
  end.

Definition strict_equal (a b : any) : bool :=
  match a, b with
  | None, None => true
  | Some x, Some y => strict_equal_json x y
  | _, _ => false
  end.

(** Truthiness, as the conditional operator tests it. *)
Definition truthy (v : any) : bool :=
  match v with
  | None => false
  | Some JNull => false
  | Some (JBool b) => b
  | Some (JNumber n) => negb (Z.eqb n 0)
  | Some (JString s) => negb (String.eqb s "")
  | Some (JArray _ _) => true
  | Some (JObject _ _) => true
  end.

(** Deep (structural) equality, the comparison the design document asks
    of [combine]: same shape and same contents, whatever the identity of
    the arrays and objects involved; the properties of an object are
    compared by key. *)
Fixpoint deep_equal (a b : json) : bool :=
  match a, b with
  | JNull, JNull => true
  | JBool x, JBool y => Bool.eqb x y
  | JNumber x, JNumber y => Z.eqb x y
  | JString x, JString y => String.eqb x y
  | JArray _ xs, JArray _ ys =>
      (fix elems_equal (xs ys : list json) : bool :=
         match xs, ys with
         | [], [] => true
         | x :: xs', y :: ys' => deep_equal x y && elems_equal xs' ys'
         | _, _ => false
         end) xs ys
  | JObject _ ps, JObject _ qs =>
      Nat.eqb (length ps) (length qs) &&
      (fix props_equal (ps : list (string * json)) : bool :=
         match ps with
         | [] => true
         | (k, v) :: ps' =>
             match getProperty k qs with
             | Some w => deep_equal v w
             | None => false
             end && props_equal ps'
         end) ps
  | _, _ => false
  end.

Definition deep_equal_any (a b : any) : bool :=
  match a, b with
  | None, None => true
  | Some x, Some y => deep_equal x y
  | _, _ => false
  end.

(** ** The attribute store *)

(** Modelled from the spec: the attribute set of a type node, which
    quicktype-core implements as a map from attribute kind to value.
    A node carries at most one value per kind; the two kinds of this
    program are its two fields.  The marker kind is a
    [TypeAttributeKind<boolean>], the default kind a
    [TypeAttributeKind<any>], whose stored value may be [undefined]. *)
Record TypeAttributes : Type := {
  attr_gameObject : option bool;
  attr_propertyDefaults : option any
}.

Definition emptyTypeAttributes : TypeAttributes :=
  {| attr_gameObject := None; attr_propertyDefaults := None |}.

(** ** [GameObjectTypeAttributeKind] *)

Module GameObjectTypeAttributeKind.

Definition name : string := "gameObject".

(** [attrs.some(x => x)] *)
Definition combine (attrs : list bool) : bool :=
  existsb (fun x => x) attrs.

Definition makeInferred (_ : bool) : option bool := None.

Definition stringify (isGameObject : bool) : string :=
  if isGameObject then "true" else "false".

(** Modelled from the spec: [attach], the one-entry attribute set
    [new Map([[this, value]])] of the base class. *)
Definition makeAttributes (value : bool) : TypeAttributes :=
  {| attr_gameObject := Some value; attr_propertyDefaults := None |}.

(** Modelled from the spec: [lookup], the base class's [a.get(this)]. *)
Definition tryGetInAttributes (a : TypeAttributes) : option bool :=
  attr_gameObject a.

End GameObjectTypeAttributeKind.

(** ** [DefaultValueTypeAttributeKind] *)

Module DefaultValueTypeAttributeKind.

Definition name : string := "propertyDefaults".

(** The body of the [for] loop of [combine], over [attrs[1]],
    [attrs[2]], ...: the first element that is [!==] to [a] throws. *)
Fixpoint combine_loop (a : any) (rest : list any) : completion unit :=
  match rest with
  | [] => Return tt
  | x :: rest' =>
      if negb (strict_equal a x)
      then Throw (Error "Inconsistent default values")
      else combine_loop a rest'
  end.

(** [attrs[0]] is [undefined] on the empty array. *)
Definition combine (attrs : list any) : completion any :=
  let a := hd undefined attrs in
  match combine_loop a (tl attrs) with
  | Throw e => Throw e
  | Return _ => Return a
  end.

Definition makeInferred (_ : any) : option any := None.

(** Modelled from the spec: [attach], the one-entry attribute set
    [new Map([[this, value]])] of the base class.  The entry exists
    whatever the value, [undefined] included. *)
Definition makeAttributes (value : any) : TypeAttributes :=
  {| attr_gameObject := None; attr_propertyDefaults := Some value |}.

(** Modelled from the spec: [lookup], the base class's [a.get(this)],
    which is [undefined] both when the kind has no entry and when its
    entry holds [undefined]. *)
Definition tryGetInAttributes (a : TypeAttributes) : any :=
  match attr_propertyDefaults a with
  | Some v => v
  | None => undefined
  end.

End DefaultValueTypeAttributeKind.

(** ** The attribute producers *)

(** A JSON Schema is a boolean or an object. *)
Inductive JSONSchema : Type :=
| SchemaBoolean (b : bool)
| SchemaObject (props : list (string * json)).

(** [typeof schema] *)
Definition typeof_schema (schema : JSONSchema) : string :=
  match schema with
  | SchemaBoolean _ => "boolean"
  | SchemaObject _ => "object"
  end.

(** [schema.k] once [schema] is known to be an object. *)
Definition schema_get (schema : JSONSchema) (k : string) : any :=
  match schema with
  | SchemaBoolean _ => undefined
  | SchemaObject props => getProperty k props
  end.

(** A canonical reference, as the text that the template literal
    [`${canonicalRef}`] renders. *)
Definition Ref : Type := string.

(** The type tags a fragment was classified under: ["object"],
    ["string"], ["array"], ... *)
Definition JSONSchemaType : Type := string.

(** What a producer returns: [{ forType: ... }]. *)
Record JSONSchemaAttributes : Type := {
  forType : TypeAttributes
}.

Definition gameObjectAttributeProducer
    (schema : JSONSchema) (canonicalRef : Ref) (types : gset JSONSchemaType)
    : completion (option JSONSchemaAttributes) :=
  if negb (String.eqb (typeof_schema schema) "object") then Return None
  else if negb (bool_decide ("object" ∈ types)) then Return None
  else
    let isGameObject : completion bool :=
      match schema_get schema "gameObject" with
      | None => Return false
      | Some g =>
          match g with
          | JBool b => Return b
          | _ => Throw (Error ("gameObject is not a boolean in " +:+ canonicalRef))
          end
      end in
    match isGameObject with
    | Throw e => Throw e
    | Return b =>
        Return (Some {| forType := GameObjectTypeAttributeKind.makeAttributes b |})
    end.

(** [typeof schema.default === undefined] compares the string that
    [typeof] yields with [undefined]. *)
Definition propertyDefaultsAttributeProducer
    (schema : JSONSchema) : option JSONSchemaAttributes :=
  if negb (String.eqb (typeof_schema schema) "object") then None
  else if strict_equal (Some (JString (typeof (schema_get schema "default")))) undefined
  then None
  else Some {| forType :=
                 DefaultValueTypeAttributeKind.makeAttributes
                   (schema_get schema "default") |}.

(** ** The type graph and its combination step *)

(** Modelled from the spec: the shapes of type-graph nodes; only
    [ClassKind] nodes are instances of [ClassType]. *)
Inductive TypeKind : Type :=
| ClassKind
| ObjectKind
| MapKind
| ArrayKind
| EnumKind
| UnionKind
| IntersectionKind
| PrimitiveKind (tag : string).

(** Modelled from the spec: a type-graph node, of which this program
    reads the shape and the attribute set. *)
Record TypeNode : Type := {
  kind : TypeKind;
  getAttributes : TypeAttributes
}.

(** [t instanceof ClassType] *)
Definition instanceof_ClassType (t : TypeNode) : bool :=
  match kind t with
  | ClassKind => true
  | _ => false
  end.

(** Modelled from the spec: a class property, of which this program
    reads the resolved type node. *)
Record ClassProperty : Type := {
  type : TypeNode;
  isOptional : bool
}.

(** The operations of an attribute kind that the graph engine calls
    when it unifies nodes ([stringify] serves debugging output only). *)
Record TypeAttributeKind (T : Type) : Type := {
  kindName : string;
  kindCombine : list T -> completion T;
  kindMakeInferred : T -> option T
}.
Arguments kindName {T} _.
Arguments kindCombine {T} _ _.
Arguments kindMakeInferred {T} _ _.

(** [new GameObjectTypeAttributeKind()] *)
Definition gameObjectTypeAttributeKind : TypeAttributeKind bool :=
  {| kindName := GameObjectTypeAttributeKind.name;
     kindCombine := fun attrs => Return (GameObjectTypeAttributeKind.combine attrs);
     kindMakeInferred := GameObjectTypeAttributeKind.makeInferred |}.

(** [new DefaultValueTypeAttributeKind()] *)
Definition defaultValueTypeAttributeKind : TypeAttributeKind any :=
  {| kindName := DefaultValueTypeAttributeKind.name;
     kindCombine := DefaultValueTypeAttributeKind.combine;
     kindMakeInferred := DefaultValueTypeAttributeKind.makeInferred |}.

(** Modelled from the spec: what the graph engine computes for one
    attribute kind on the node that results from unifying two nodes.
    Two contributions are handed to the kind's [combine]; a
    contribution that meets a node without the attribute is handed to
    the kind's [makeInferred], whose answer is kept ([None] drops the
    attribute); no contribution gives no attribute. *)
Definition mergeAttribute {T : Type} (k : TypeAttributeKind T)
    (a b : option T) : completion (option T) :=
  match a, b with
  | Some x, Some y =>
      match kindCombine k [x; y] with
      | Return v => Return (Some v)
      | Throw e => Throw e
      end
  | Some x, None => Return (kindMakeInferred k x)
  | None, Some y => Return (kindMakeInferred k y)
  | None, None => Return None
  end.

(** The marker lookup on the node that unifies nodes with attribute sets
    [a] and [b]. *)
Definition mergedMarker (a b : TypeAttributes) : completion (option bool) :=
  mergeAttribute gameObjectTypeAttributeKind
    (GameObjectTypeAttributeKind.tryGetInAttributes a)
    (GameObjectTypeAttributeKind.tryGetInAttributes b).

(** Modelled from the spec: the attribute set that the engine attaches
    to the node made from a fragment, from what a producer returned for
    it. *)
Definition attributesOf (produced : option JSONSchemaAttributes) : TypeAttributes :=
  match produced with
  | Some r => forType r
  | None => emptyTypeAttributes
  end.

(** ** Source text and [JSON.stringify] *)

(** Modelled from the spec: a name that the renderer assigns. *)
Inductive Name : Type :=
| MkName (id : nat).

(** Modelled from the spec: text under construction; a string, a name
    or an array of such. *)
Inductive Sourcelike : Type :=
| SText (s : string)
| SName (n : Name)
| SArray (items : list Sourcelike).

Definition double_quote : string := String (ascii_of_nat 34) "".
Definition backslash : string := String (ascii_of_nat 92) "".

Definition hex_digit (n : nat) : string :=
  String (nth n (list_ascii_of_string "0123456789abcdef") "0"%char) "".

(** One code unit of a quoted JSON string. *)
Definition quote_code_unit (c : ascii) : string :=
  let n := nat_of_ascii c in
  if Nat.eqb n 8 then backslash +:+ "b"
  else if Nat.eqb n 9 then backslash +:+ "t"
  else if Nat.eqb n 10 then backslash +:+ "n"
  else if Nat.eqb n 12 then backslash +:+ "f"
  else if Nat.eqb n 13 then backslash +:+ "r"
  else if Nat.eqb n 34 then backslash +:+ double_quote
  else if Nat.eqb n 92 then backslash +:+ backslash
  else if Nat.ltb n 32
       then backslash +:+ "u00" +:+ hex_digit (Nat.div n 16) +:+ hex_digit (Nat.modulo n 16)
  else String c "".

Fixpoint quote_code_units (s : string) : string :=
  match s with
  | EmptyString => ""
  | String c rest => quote_code_unit c +:+ quote_code_units rest
  end.

Definition QuoteJSONString (s : string) : string :=
  double_quote +:+ quote_code_units s +:+ double_quote.

(** [JSON.stringify(v)] for a value other than [undefined], without
    indentation.  The numeral is the one that [JSON.stringify] prints
    for a safe integer; for a value with a number beyond
    [Number.MAX_SAFE_INTEGER] this text is not claimed to be the
    program's (see [in_number_domain]). *)
Fixpoint JSON_stringify (v : json) : string :=
  match v with
  | JNull => "null"
  | JBool b => if b then "true" else "false"
  | JNumber n => pretty n
  | JString s => QuoteJSONString s
  | JArray _ elems =>
      "[" +:+
      (fix items (l : list json) : string :=
         match l with
         | [] => ""
         | x :: rest =>
             JSON_stringify x +:+
             match rest with
             | [] => ""
             | _ :: _ => "," +:+ items rest
             end
         end) elems
      +:+ "]"
  | JObject _ props =>
      "{" +:+
      (fix members (l : list (string * json)) : string :=
         match l with
         | [] => ""
         | (k, x) :: rest =>
             QuoteJSONString k +:+ ":" +:+ JSON_stringify x +:+
             match rest with
             | [] => ""
             | _ :: _ => "," +:+ members rest
             end
         end) props
      +:+ "}"
  end.

(** ** [GameCSharpRenderer] *)

(** The two rendering decisions of the base renderer that the game
    renderer overrides. *)
Record CSharpRenderer : Type := {
  base_superclassForType : TypeNode -> option Sourcelike;
  base_propertyDefinition :
    ClassProperty -> Name -> TypeNode -> string -> Sourcelike
}.

(** A [boolean | undefined] as a value. *)
Definition of_boolean (o : option bool) : any := option_map JBool o.

Module GameCSharpRenderer.

(** [undefined] is "no override". *)
Definition superclassForType (t : TypeNode) : option Sourcelike :=
  if negb (instanceof_ClassType t) then None
  else
    let attributes := getAttributes t in
    let isGameObject :=
      GameObjectTypeAttributeKind.tryGetInAttributes attributes in
    if truthy (of_boolean isGameObject) then Some (SText "GameObject")
    else None.

Definition propertyDefinition (super : CSharpRenderer)
    (p : ClassProperty) (name : Name) (c : TypeNode) (jsonName : string)
    : Sourcelike :=
  let originalDefinition := base_propertyDefinition super p name c jsonName in
  let attributes := getAttributes (type p) in
  let v := DefaultValueTypeAttributeKind.tryGetInAttributes attributes in
  match v with
  | None => originalDefinition
  | Some j =>
      SArray [originalDefinition; SText " = "; SText (JSON_stringify j); SText ";"]
  end.

End GameCSharpRenderer.

(** ** Vocabulary of the stated properties *)

(** [sub] occurs in [s]. *)
Definition includes (sub s : string) : Prop :=
  exists before after : string, s = before +:+ sub +:+ after.

(** Values that [===] compares by value. *)
Definition is_scalar (v : any) : bool :=
  match v with
  | Some (JArray _ _) => false
  | Some (JObject _ _) => false
  | _ => true
  end.

(** The combination that the design document words for the default
    kind: the first value when every other contribution is deeply equal
    to it, the inconsistency error otherwise. *)
Definition combine_deeply (attrs : list any) : completion any :=
  let a := hd undefined attrs in
  if forallb (deep_equal_any a) (tl attrs) then Return a
  else Throw (Error "Inconsistent default values").

(** The pieces of text that a [Sourcelike] emits, in order. *)
Fixpoint atoms (s : Sourcelike) : list Sourcelike :=
  match s with
  | SArray items =>
      (fix atoms_of (l : list Sourcelike) : list Sourcelike :=
         match l with
         | [] => []
         | x :: rest => atoms x ++ atoms_of rest
         end) items
  | _ => [s]
  end.

(** A node of the given shape and attributes. *)
Definition node (k : TypeKind) (marker : option bool) (default : option any)
    : TypeNode :=
  {| kind := k;
     getAttributes :=
       {| attr_gameObject := marker; attr_propertyDefaults := default |} |}.

(** ** The renderer of the revision before the attribute *)

Module UnconditionalGameCSharpRenderer.

(** Every class gets the supertype. *)
Definition superclassForType (t : TypeNode) : option Sourcelike :=
  if instanceof_ClassType t then Some (SText "GameObject") else None.

End UnconditionalGameCSharpRenderer.

(** ** The command line *)

(** An argument of [console.error]: a text, or an error object. *)
Inductive logged : Type :=
| LogText (s : string)
| LogError (e : exn).

(** The calls that [main] makes outside this program: reading the
    schema file, adding it as a source (with the two producers) and
    running quicktype for the game language.  Each may throw. *)
Record Host : Type := {
  InputData : Type;
  readFileSync : string -> string -> completion string;
  addSource : string -> string * string -> completion InputData;
  quicktype : InputData -> completion (list string)
}.

(** How the promise of [main] settles, unless [process.exit] ends the
    process first. *)
Inductive settled : Type :=
| Fulfilled
| Rejected (e : exn)
| Exited (status : nat).

(** What a call has written to the output and error streams, and how it
    ended. *)
Record Run : Type := {
  written : list string;
  errors : list logged;
  ending : settled
}.

(** [for (const line of lines) console.log(line)], after what is
    already written. *)
Definition log_lines (lines : list string) (out : list string) : list string :=
  fold_left (fun out line => out ++ [line]) lines out.

Definition main (h : Host) (program : string) (args : list string) : Run :=
  if negb (Nat.eqb (length args) 1) then
    {| written := [];
       errors := [LogText ("Usage: " +:+ program +:+ " SCHEMA")];
       ending := Exited 1 |}
  else
    match readFileSync h (nth 0 args "") "utf8" with
    | Throw e => {| written := []; errors := []; ending := Rejected e |}
    | Return schema =>
        match addSource h "schema" ("Player", schema) with
        | Throw e => {| written := []; errors := []; ending := Rejected e |}
        | Return inputData =>
            match quicktype h inputData with
            | Throw e => {| written := []; errors := []; ending := Rejected e |}
            | Return lines =>
                {| written := log_lines lines []; errors := [];
                   ending := Fulfilled |}
            end
        end
    end.

(** What the process wrote and the status it exited with. *)
Record Process : Type := {
  stdout : list string;
  stderr : list logged;
  exitStatus : nat
}.

(** The script's last statement:
    [main(process.argv[1], process.argv.slice(2)).catch(e => {
       console.error(e); process.exit(1); })].
    A missing [argv[1]] is [undefined], which the usage line renders
    as the text ["undefined"]. *)
Definition script (h : Host) (argv : list string) : Process :=
  let r := main h (nth 1 argv "undefined") (skipn 2 argv) in
  match ending r with
  | Fulfilled => {| stdout := written r; stderr := errors r; exitStatus := 0 |}
  | Rejected e =>
      {| stdout := written r; stderr := errors r ++ [LogError e];
         exitStatus := 1 |}
  | Exited status =>
      {| stdout := written r; stderr := errors r; exitStatus := status |}
  end.

(** The three outside calls of [main] in sequence, for the schema file
    at [path]. *)
Definition generate (h : Host) (path : string) : completion (list string) :=
  match readFileSync h path "utf8" with
  | Throw e => Throw e
  | Return schema =>
      match addSource h "schema" ("Player", schema) with
      | Throw e => Throw e
      | Return inputData => quicktype h inputData
      end
  end.

(** A completion that returned. *)
Definition returns {T : Type} (c : completion T) : bool :=
  match c with
  | Return _ => true
  | Throw _ => false
  end.

(** The number of constructors of a piece of source text. *)
Fixpoint sourcelike_size (s : Sourcelike) : nat :=
  match s with
  | SArray items =>
      S ((fix sizes (l : list Sourcelike) : nat :=
            match l with
            | [] => 0
            | x :: rest => sourcelike_size x + sizes rest
            end) items)
  | _ => 1
  end.

(** A host on which no file can be read. *)
Definition host_without_files : Host :=
  {| InputData := unit;
     readFileSync := fun _ _ => Throw (Error "ENOENT: no such file or directory");
     addSource := fun _ _ => Return tt;
     quicktype := fun _ => Return [] |}.

(** A host whose quicktype run yields the given lines for every
    schema. *)
Definition host_yielding (lines : list string) : Host :=
  {| InputData := unit;
     readFileSync := fun _ _ => Return "{}";
     addSource := fun _ _ => Return tt;
     quicktype := fun _ => Return lines |}.

(** [Number.isSafeInteger]: at most [2^53 - 1] in absolute value. *)
Definition safe_integer (n : Z) : bool :=
  (Z.abs n <=? 9007199254740991)%Z.

(** The values whose text [JSON_stringify] models: every number in
    them is a safe integer. *)
Fixpoint in_number_domain (v : json) : bool :=
  match v with
  | JNumber n => safe_integer n
  | JArray _ elems =>
      (fix all_in (l : list json) : bool :=
         match l with
         | [] => true
         | x :: rest => in_number_domain x && all_in rest
         end) elems
  | JObject _ props =>
      (fix all_in (l : list (string * json)) : bool :=
         match l with
         | [] => true
         | (_, x) :: rest => in_number_domain x && all_in rest
         end) props
  | _ => true
  end.

Definition any_in_number_domain (v : any) : bool :=
  match v with
  | Some j => in_number_domain j
  | None => true
  end.

(** The texts, separated by commas. *)
Fixpoint join_with_commas (parts : list string) : string :=
  match parts with
  | [] => ""
  | x :: rest =>
      x +:+ match rest with
            | [] => ""
            | _ :: _ => "," +:+ join_with_commas rest
            end
  end.

(** The text of one member of an object. *)
Definition member_text (member : string * json) : string :=
  QuoteJSONString (fst member) +:+ ":" +:+ JSON_stringify (snd member).

(** The characters with which a C# literal can start: a letter
    ([true], [false], [null]), a digit, a point or a sign (numerals), a
    double or single quote, or the [@] and [$] that may precede a
    string. *)
Definition starts_csharp_literal (c : ascii) : bool :=
  let n := nat_of_ascii c in
  (Nat.leb 65 n && Nat.leb n 90) || (Nat.leb 97 n && Nat.leb n 122) ||
  (Nat.leb 48 n && Nat.leb n 57) ||
  Nat.eqb n 46 || Nat.eqb n 45 || Nat.eqb n 43 ||
  Nat.eqb n 34 || Nat.eqb n 39 || Nat.eqb n 64 || Nat.eqb n 36.

(** A necessary condition for a text to be a literal of C#: it starts
    as one.  A text for which this is [false] is no C# literal. *)
Definition may_be_csharp_literal (s : string) : bool :=
  match s with
  | EmptyString => false
  | String c _ => starts_csharp_literal c
  end.

(** Arrays and objects. *)
Definition is_nested (v : json) : bool :=
  match v with
  | JArray _ _ => true
  | JObject _ _ => true
  | _ => false
  end.

(** * Properties *)

(** ** The marker kind *)

Section MarkerKind.

Import GameObjectTypeAttributeKind.

Lemma combine_true_iff (attrs : list bool) :
  combine attrs = true <-> In true attrs.
Proof.
  unfold combine. rewrite existsb_exists. split.
  - intros [x [Hin Hx]]. now subst x.
  - intros Hin. now exists true.
Qed.

Lemma combine_false_iff (attrs : list bool) :
  combine attrs = false <-> ~ In true attrs.
Proof.
  rewrite <- combine_true_iff. destruct (combine attrs); split; congruence.
Qed.

Lemma combine_app (xs ys : list bool) :
  combine (xs ++ ys) = combine xs || combine ys.
Proof. unfold combine. apply existsb_app. Qed.

Lemma combine_Permutation (xs ys : list bool) :
  Permutation xs ys -> combine xs = combine ys.
Proof.
  unfold combine.
  induction 1 as [| x xs ys _ IH | x y xs | xs ys zs _ IH1 _ IH2]; simpl.
  - reflexivity.
  - now rewrite IH.
  - now destruct x, y.
  - congruence.
Qed.

Lemma combine_concat (groups : list (list bool)) :
  combine (map combine groups) = combine (concat groups).
Proof.
  induction groups as [| g groups IH]; [reflexivity |].
  cbn [map concat]. rewrite combine_app, <- IH. reflexivity.
Qed.

(** C4: [combine] of two marker values is their disjunction; on any
    sequence it is [true] exactly when some element is [true] (and
    [false] otherwise); it is associative (combining the results of
    combining groups is combining all their elements at once) and
    commutative (reordering the sequence does not change the result). *)
Theorem marker_combine_is_or :
  (forall b1 b2 : bool, combine [b1; b2] = b1 || b2) /\
  (forall attrs : list bool, combine attrs = true <-> In true attrs) /\
  (forall attrs : list bool, combine attrs = false <-> ~ In true attrs) /\
  (forall groups : list (list bool),
      combine (map combine groups) = combine (concat groups)) /\
  (forall xs ys zs : list bool,
      combine (combine (xs ++ ys) :: zs) = combine (xs ++ combine (ys ++ zs) :: [])) /\
  (forall xs ys : list bool, Permutation xs ys -> combine xs = combine ys).
Proof.
  split; [| split; [| split; [| split; [| split]]]].
  - intros [] []; reflexivity.
  - apply combine_true_iff.
  - apply combine_false_iff.
  - apply combine_concat.
  - intros xs ys zs.
    change (combine (xs ++ ys) :: zs) with ([combine (xs ++ ys)] ++ zs).
    rewrite !combine_app.
    assert (Hone : forall b : bool, combine [b] = b) by (intros []; reflexivity).
    rewrite !Hone. symmetry. apply orb_assoc.
  - apply combine_Permutation.
Qed.

(** Reordering a concrete sequence: the instance of C4's commutativity
    at [true; false; false]. *)
Lemma marker_combine_is_or_witness :
  Permutation [true; false; false] [false; false; true] /\
  combine [true; false; false] = combine [false; false; true].
Proof.
  assert (H : Permutation [true; false; false] [false; false; true]).
  { apply (Permutation_app_comm [true] [false; false]). }
  split; [exact H |].
  exact (proj2 (proj2 (proj2 (proj2 (proj2 marker_combine_is_or)))) _ _ H).
Defined.

End MarkerKind.

(** C5: [makeInferred] answers "absent" for every marker value, so the
    node that unifies a node carrying the marker with a node that does
    not carry it has no marker: its lookup is neither [true] nor
    [false]. *)
Theorem marker_makeInferred_drops :
  (forall m : bool, GameObjectTypeAttributeKind.makeInferred m = None) /\
  (forall (a b : TypeAttributes) (m : bool),
      GameObjectTypeAttributeKind.tryGetInAttributes a = Some m ->
      GameObjectTypeAttributeKind.tryGetInAttributes b = None ->
      mergedMarker a b = Return None /\ mergedMarker b a = Return None).
Proof.
  split; [reflexivity |].
  intros a b m Ha Hb. unfold mergedMarker, mergeAttribute.
  rewrite Ha, Hb. split; reflexivity.
Qed.

(** The union of an object fragment that declares [gameObject: true]
    with a string fragment: the instance of C5 at the attribute sets
    that the marker producer yields for the two fragments. *)
Lemma marker_makeInferred_drops_witness :
  let marked :=
    {| attr_gameObject := Some true; attr_propertyDefaults := None |} in
  gameObjectAttributeProducer
    (SchemaObject [("gameObject", JBool true)]) "#/oneOf/0" {["object"]} =
    Return (Some {| forType := marked |}) /\
  gameObjectAttributeProducer
    (SchemaObject [("type", JString "string")]) "#/oneOf/1" {["string"]} =
    Return None /\
  GameObjectTypeAttributeKind.tryGetInAttributes marked = Some true /\
  GameObjectTypeAttributeKind.tryGetInAttributes (attributesOf None) = None /\
  mergedMarker marked (attributesOf None) = Return None /\
  mergedMarker (attributesOf None) marked = Return None.
Proof.
  intros marked.
  split; [reflexivity | split; [reflexivity |]].
  split; [reflexivity | split; [reflexivity |]].
  exact (proj2 marker_makeInferred_drops marked (attributesOf None) true
           eq_refl eq_refl).
Defined.

(** ** The default kind *)

Section DefaultKind.

Import DefaultValueTypeAttributeKind.

Lemma combine_loop_forallb (a : any) (rest : list any) :
  combine_loop a rest =
    if forallb (strict_equal a) rest then Return tt
    else Throw (Error "Inconsistent default values").
Proof.
  induction rest as [| x rest IH]; [reflexivity |].
  simpl. destruct (strict_equal a x); simpl; [exact IH | reflexivity].
Qed.

Lemma strict_equal_scalar (a b : any) :
  is_scalar a = true -> strict_equal a b = deep_equal_any a b.
Proof.
  destruct a as [[] |], b as [[] |]; simpl; trivial; discriminate.
Qed.

(** On scalar defaults the two comparisons agree, and so do the two
    combinations. *)
Lemma combine_deeply_scalar (attrs : list any) :
  is_scalar (hd undefined attrs) = true -> combine attrs = combine_deeply attrs.
Proof.
  intros Hs. unfold combine, combine_deeply.
  rewrite combine_loop_forallb.
  replace (forallb (deep_equal_any (hd undefined attrs)) (tl attrs))
    with (forallb (strict_equal (hd undefined attrs)) (tl attrs)).
  - now destruct (forallb _ _).
  - induction (tl attrs) as [| b rest IH]; [reflexivity |].
    simpl. now rewrite IH, (strict_equal_scalar _ b Hs).
Qed.

(** C2, as the code has it: [combine] returns the first value when every
    later contribution is [===] to it (the same scalar, or the very same
    array or object) and throws the inconsistency error as soon as one
    is not; two contributions [5] give [5], contributions [5] and [7]
    throw. *)
Theorem default_combine_strict :
  (forall (a : any) (rest : list any),
      combine (a :: rest) =
        if forallb (strict_equal a) rest then Return a
        else Throw (Error "Inconsistent default values")) /\
  combine [Some (JNumber 5); Some (JNumber 5)] = Return (Some (JNumber 5)) /\
  combine [Some (JNumber 5); Some (JNumber 7)] =
    Throw (Error "Inconsistent default values").
Proof.
  split; [| split; reflexivity].
  intros a rest. unfold combine. cbn [hd tl].
  rewrite combine_loop_forallb. now destruct (forallb _ _).
Qed.

(** C2, as stated, fails on two arrays [[1]] parsed in two places: they
    are deeply equal, so the design document's combination returns the
    first, and [combine] throws. *)
Lemma default_combine_not_deep :
  deep_equal_any (Some (JArray 0 [JNumber 1])) (Some (JArray 1 [JNumber 1])) = true /\
  combine_deeply [Some (JArray 0 [JNumber 1]); Some (JArray 1 [JNumber 1])] =
    Return (Some (JArray 0 [JNumber 1])) /\
  combine [Some (JArray 0 [JNumber 1]); Some (JArray 1 [JNumber 1])] =
    Throw (Error "Inconsistent default values").
Proof. repeat split. Qed.

End DefaultKind.

(** ** The producers *)

Section Producers.

Lemma append_empty_r (s : string) : s +:+ "" = s.
Proof.
  induction s as [| c s IH]; [reflexivity |].
  change (String c (s +:+ "") = String c s). now rewrite IH.
Qed.

Lemma getProperty_None_iff (k : string) (props : list (string * json)) :
  getProperty k props = None <-> ~ In k (map fst props).
Proof.
  induction props as [| [k' v] props IH]; simpl.
  - tauto.
  - destruct (String.eqb_spec k k') as [-> | Hne].
    + split; [discriminate | tauto].
    + rewrite IH. intuition congruence.
Qed.

(** What [propertyDefaultsAttributeProducer] does on every object
    fragment: the guard on [typeof] never fires. *)
Lemma propertyDefaults_producer_object (props : list (string * json)) :
  propertyDefaultsAttributeProducer (SchemaObject props) =
    Some {| forType :=
              DefaultValueTypeAttributeKind.makeAttributes
                (getProperty "default" props) |}.
Proof. reflexivity. Qed.

(** C1: on the fragment [{}], which declares no default,
    [propertyDefaultsAttributeProducer] still returns a contribution
    for the default kind, holding [undefined]; on a fragment that
    declares [default: null] it returns a contribution holding
    [null]. *)
Theorem propertyDefaults_producer_without_default :
  propertyDefaultsAttributeProducer (SchemaObject []) =
    Some {| forType := DefaultValueTypeAttributeKind.makeAttributes undefined |} /\
  propertyDefaultsAttributeProducer (SchemaObject [("default", JNull)]) =
    Some {| forType := DefaultValueTypeAttributeKind.makeAttributes (Some JNull) |}.
Proof. split; reflexivity. Qed.

(** C3: on an object fragment classified as ["object"], the marker
    producer contributes [false] when [gameObject] is absent, the
    value when it is a boolean, and otherwise throws an error whose
    message includes the canonical reference. *)
Theorem gameObject_producer_on_object
    (props : list (string * json)) (canonicalRef : Ref)
    (types : gset JSONSchemaType) :
  "object" ∈ types ->
  (getProperty "gameObject" props = None ->
   gameObjectAttributeProducer (SchemaObject props) canonicalRef types =
     Return (Some {| forType := GameObjectTypeAttributeKind.makeAttributes false |})) /\
  (forall b : bool,
      getProperty "gameObject" props = Some (JBool b) ->
      gameObjectAttributeProducer (SchemaObject props) canonicalRef types =
        Return (Some {| forType := GameObjectTypeAttributeKind.makeAttributes b |})) /\
  (forall g : json,
      getProperty "gameObject" props = Some g ->
      typeof (Some g) <> "boolean" ->
      exists e : exn,
        gameObjectAttributeProducer (SchemaObject props) canonicalRef types = Throw e /\
        includes canonicalRef (message_of e)).
Proof.
  intros Hobj. unfold gameObjectAttributeProducer. cbn [typeof_schema schema_get].
  rewrite (bool_decide_eq_true_2 _ Hobj). cbn [String.eqb negb].
  split; [| split].
  - intros ->. reflexivity.
  - intros b ->. reflexivity.
  - intros g -> Hg.
    exists (Error ("gameObject is not a boolean in " +:+ canonicalRef)).
    split.
    + destruct g; try reflexivity. now contradiction Hg.
    + exists "gameObject is not a boolean in ", "". cbn [message_of].
      now rewrite append_empty_r.
Qed.

(** The fragment [{"gameObject": "yes"}] at [#/definitions/Player]:
    the instance of C3 at a string-valued flag. *)
Lemma gameObject_producer_on_object_witness :
  ("object" ∈ ({["object"]} : gset JSONSchemaType)) /\
  exists e : exn,
    gameObjectAttributeProducer
      (SchemaObject [("gameObject", JString "yes")])
      "#/definitions/Player" {["object"]} = Throw e /\
    includes "#/definitions/Player" (message_of e).
Proof.
  assert (Hobj : "object" ∈ ({["object"]} : gset JSONSchemaType))
    by (apply elem_of_singleton; reflexivity).
  split; [exact Hobj |].
  apply (proj2 (proj2 (gameObject_producer_on_object
                         [("gameObject", JString "yes")]
                         "#/definitions/Player" {["object"]} Hobj))
           (JString "yes")).
  - reflexivity.
  - discriminate.
Defined.

(** C8: the marker producer returns nothing on a boolean schema, and
    nothing on a fragment whose type tags do not include ["object"]. *)
Theorem gameObject_producer_out_of_scope :
  (forall (b : bool) (canonicalRef : Ref) (types : gset JSONSchemaType),
      gameObjectAttributeProducer (SchemaBoolean b) canonicalRef types =
        Return None) /\
  (forall (schema : JSONSchema) (canonicalRef : Ref)
          (types : gset JSONSchemaType),
      "object" ∉ types ->
      gameObjectAttributeProducer schema canonicalRef types = Return None).
Proof.
  split.
  - reflexivity.
  - intros schema canonicalRef types Hnot. unfold gameObjectAttributeProducer.
    rewrite (bool_decide_eq_false_2 _ Hnot).
    now destruct (negb (String.eqb (typeof_schema schema) "object")).
Qed.

(** A fragment classified as a string that carries the flag all the
    same: the instance of C8 at [{"gameObject": true}] with the tags
    [{"string"}]. *)
Lemma gameObject_producer_out_of_scope_witness :
  ("object" ∉ ({["string"]} : gset JSONSchemaType)) /\
  gameObjectAttributeProducer
    (SchemaObject [("gameObject", JBool true)]) "#/properties/name"
    {["string"]} = Return None.
Proof.
  assert (Hnot : "object" ∉ ({["string"]} : gset JSONSchemaType)).
  { intros Hin. apply elem_of_singleton in Hin. discriminate Hin. }
  split; [exact Hnot |].
  exact (proj2 gameObject_producer_out_of_scope
           (SchemaObject [("gameObject", JBool true)]) "#/properties/name"
           {["string"]} Hnot).
Defined.

End Producers.

(** ** The render hooks *)

Section RenderHooks.

Import GameCSharpRenderer.

(** C6: on a class node, [superclassForType] returns ["GameObject"]
    when the marker lookup is [true] and "no override" otherwise; a
    node that never had the marker attached gets "no override". *)
Theorem superclassForType_on_class (t : TypeNode) :
  instanceof_ClassType t = true ->
  (GameObjectTypeAttributeKind.tryGetInAttributes (getAttributes t) = Some true ->
   superclassForType t = Some (SText "GameObject")) /\
  (GameObjectTypeAttributeKind.tryGetInAttributes (getAttributes t) <> Some true ->
   superclassForType t = None) /\
  (GameObjectTypeAttributeKind.tryGetInAttributes (getAttributes t) = None ->
   superclassForType t = None).
Proof.
  intros Hclass. unfold superclassForType. rewrite Hclass. cbn [negb].
  split; [| split].
  - intros ->. reflexivity.
  - intros Hne.
    destruct (GameObjectTypeAttributeKind.tryGetInAttributes (getAttributes t))
      as [[] |]; [now contradiction Hne | reflexivity | reflexivity].
  - intros ->. reflexivity.
Qed.

(** A class node with an empty attribute set: the instance of C6 at a
    node that never had the marker attached. *)
Lemma superclassForType_on_class_witness :
  instanceof_ClassType (node ClassKind None None) = true /\
  superclassForType (node ClassKind None None) = None.
Proof.
  split; [reflexivity |].
  exact (proj2 (proj2 (superclassForType_on_class (node ClassKind None None)
                         eq_refl)) eq_refl).
Defined.

(** C10: a class node whose marker is the explicit [false] and a class
    node without the marker both get "no override", although the
    combination step tells them apart: unified with a node whose marker
    is [m], the first yields [m] and the second drops the marker. *)
Theorem superclassForType_false_as_absent (t u : TypeNode) :
  instanceof_ClassType t = true ->
  instanceof_ClassType u = true ->
  GameObjectTypeAttributeKind.tryGetInAttributes (getAttributes t) = Some false ->
  GameObjectTypeAttributeKind.tryGetInAttributes (getAttributes u) = None ->
  superclassForType t = None /\
  superclassForType u = None /\
  (forall (c : TypeAttributes) (m : bool),
      GameObjectTypeAttributeKind.tryGetInAttributes c = Some m ->
      mergedMarker (getAttributes t) c = Return (Some m) /\
      mergedMarker (getAttributes u) c = Return None).
Proof.
  intros Ht Hu Hfalse Habsent. unfold superclassForType.
  rewrite Ht, Hu, Hfalse, Habsent. cbn [negb].
  split; [reflexivity | split; [reflexivity |]].
  intros c m Hc. unfold mergedMarker, mergeAttribute.
  rewrite Hfalse, Habsent, Hc. split; [now destruct m | reflexivity].
Qed.

(** Two class nodes, one marked [false] and one unmarked: the instance
    of C10 at nodes without a default. *)
Lemma superclassForType_false_as_absent_witness :
  instanceof_ClassType (node ClassKind (Some false) None) = true /\
  instanceof_ClassType (node ClassKind None None) = true /\
  superclassForType (node ClassKind (Some false) None) = None /\
  superclassForType (node ClassKind None None) = None.
Proof.
  split; [reflexivity | split; [reflexivity |]].
  pose proof (superclassForType_false_as_absent
                (node ClassKind (Some false) None) (node ClassKind None None)
                eq_refl eq_refl eq_refl eq_refl) as H.
  exact (conj (proj1 H) (proj1 (proj2 H))).
Defined.

Lemma atoms_SArray_cons (x : Sourcelike) (rest : list Sourcelike) :
  atoms (SArray (x :: rest)) = atoms x ++ atoms (SArray rest).
Proof. reflexivity. Qed.

Lemma append_assoc_string (a b c : string) :
  (a +:+ b) +:+ c = a +:+ (b +:+ c).
Proof.
  induction a as [| x a IH]; [reflexivity |].
  change (String x ((a +:+ b) +:+ c) = String x (a +:+ (b +:+ c))).
  now rewrite IH.
Qed.

Lemma JSON_stringify_array (r : nat) (elems : list json) :
  JSON_stringify (JArray r elems) =
    "[" +:+ join_with_commas (map JSON_stringify elems) +:+ "]".
Proof.
  cbn [JSON_stringify]. do 2 f_equal.
  induction elems as [| x rest IH]; [reflexivity |].
  cbn [map join_with_commas]. f_equal.
  destruct rest as [| y rest']; [reflexivity |].
  f_equal. exact IH.
Qed.

Lemma JSON_stringify_object (r : nat) (props : list (string * json)) :
  JSON_stringify (JObject r props) =
    "{" +:+ join_with_commas (map member_text props) +:+ "}".
Proof.
  cbn [JSON_stringify]. do 2 f_equal.
  induction props as [| [k x] rest IH]; [reflexivity |].
  cbn [map join_with_commas]. unfold member_text at 1. cbn [fst snd].
  change (QuoteJSONString k +:+ ":" +:+ JSON_stringify x +:+
          match rest with
          | [] => ""
          | _ :: _ =>
              "," +:+
              (fix members (l : list (string * json)) : string :=
                 match l with
                 | [] => ""
                 | (k0, x0) :: rest0 =>
                     QuoteJSONString k0 +:+ ":" +:+ JSON_stringify x0 +:+
                     match rest0 with
                     | [] => ""
                     | _ :: _ => "," +:+ members rest0
                     end
                 end) rest
          end =
          (QuoteJSONString k +:+ ":" +:+ JSON_stringify x) +:+
          match map member_text rest with
          | [] => ""
          | _ :: _ => "," +:+ join_with_commas (map member_text rest)
          end).
  rewrite <- IH.
  destruct rest as [| [k' x'] rest']; cbn [map].
  - now rewrite !append_empty_r.
  - now rewrite !append_assoc_string.
Qed.

Lemma nested_text_is_no_literal (j : json) :
  is_nested j = true -> may_be_csharp_literal (JSON_stringify j) = false.
Proof.
  destruct j; try discriminate; intros _.
  - now rewrite JSON_stringify_array.
  - now rewrite JSON_stringify_object.
Qed.

(** C7, as the code has it: [propertyDefinition] returns the base
    renderer's declaration itself when the default lookup is
    [undefined], and otherwise the array of that declaration followed
    by [" = "], a text and [";"]; the text emitted always starts with
    the text of the base declaration, unchanged.  The text of the
    initializer is the [JSON.stringify] text of the value: [null],
    [true] or [false], the decimal numeral of a safe integer, the
    quoted string, and for arrays and objects JSON's bracketed,
    comma-separated text, which is no literal of C#. *)
Theorem propertyDefinition_appends
    (super : CSharpRenderer) (p : ClassProperty) (name : Name)
    (c : TypeNode) (jsonName : string) :
  let original := base_propertyDefinition super p name c jsonName in
  let v := DefaultValueTypeAttributeKind.tryGetInAttributes
             (getAttributes (type p)) in
  (v = undefined ->
   propertyDefinition super p name c jsonName = original) /\
  (forall j : json,
      v = Some j ->
      exists text : string,
        propertyDefinition super p name c jsonName =
          SArray [original; SText " = "; SText text; SText ";"] /\
        (in_number_domain j = true -> text = JSON_stringify j)) /\
  (exists suffix : list Sourcelike,
      atoms (propertyDefinition super p name c jsonName) =
        atoms original ++ suffix) /\
  (JSON_stringify JNull = "null" /\
   JSON_stringify (JBool true) = "true" /\
   JSON_stringify (JBool false) = "false" /\
   (forall n : Z, safe_integer n = true -> JSON_stringify (JNumber n) = pretty n) /\
   (forall s : string, JSON_stringify (JString s) = QuoteJSONString s) /\
   (forall (r : nat) (elems : list json),
       JSON_stringify (JArray r elems) =
         "[" +:+ join_with_commas (map JSON_stringify elems) +:+ "]") /\
   (forall (r : nat) (props : list (string * json)),
       JSON_stringify (JObject r props) =
         "{" +:+ join_with_commas (map member_text props) +:+ "}")) /\
  (forall j : json,
      is_nested j = true -> may_be_csharp_literal (JSON_stringify j) = false).
Proof.
  intros original v. unfold propertyDefinition. fold original. fold v.
  split; [| split; [| split; [| split]]].
  - intros ->. reflexivity.
  - intros j ->. exists (JSON_stringify j). split; reflexivity.
  - destruct v as [j |].
    + exists [SText " = "; SText (JSON_stringify j); SText ";"].
      now rewrite atoms_SArray_cons.
    + exists []. now rewrite app_nil_r.
  - repeat split.
    + apply JSON_stringify_array.
    + apply JSON_stringify_object.
  - apply nested_text_is_no_literal.
Qed.

(** A property [health] whose type node carries the default [100]: the
    instance of C7 at a safe integer. *)
Lemma propertyDefinition_appends_witness :
  let super :=
    {| base_superclassForType := fun _ => None;
       base_propertyDefinition :=
         fun _ _ _ _ => SText "public long Health { get; set; }" |} in
  let health :=
    {| type := node (PrimitiveKind "integer") None (Some (Some (JNumber 100)));
       isOptional := false |} in
  in_number_domain (JNumber 100) = true /\
  exists text : string,
    propertyDefinition super health (MkName 0) (node ClassKind None None) "health" =
      SArray [SText "public long Health { get; set; }";
              SText " = "; SText text; SText ";"] /\
    text = JSON_stringify (JNumber 100).
Proof.
  intros super health.
  split; [reflexivity |].
  destruct (proj1 (proj2 (propertyDefinition_appends super health (MkName 0)
                            (node ClassKind None None) "health"))
              (JNumber 100) eq_refl) as [text [Hdef Htext]].
  exists text. split; [exact Hdef | exact (Htext eq_refl)].
Defined.

(** C7, as stated, fails on a property whose default is the object
    [{"hp": 1}]: the initializer is the JSON text of the object, which
    starts with a brace and is no literal of C#. *)
Lemma propertyDefinition_object_default_is_json :
  let super :=
    {| base_superclassForType := fun _ => None;
       base_propertyDefinition :=
         fun _ _ _ _ => SText "public Stats Stats { get; set; }" |} in
  let stats :=
    {| type := node ClassKind None (Some (Some (JObject 0 [("hp", JNumber 1)])));
       isOptional := false |} in
  let text := "{" +:+ double_quote +:+ "hp" +:+ double_quote +:+ ":1}" in
  in_number_domain (JObject 0 [("hp", JNumber 1)]) = true /\
  propertyDefinition super stats (MkName 0) (node ClassKind None None) "stats" =
    SArray [SText "public Stats Stats { get; set; }";
            SText " = "; SText text; SText ";"] /\
  may_be_csharp_literal text = false.
Proof. repeat split. Qed.

End RenderHooks.

(** ** Worked examples *)

Section Examples.

(** The text of an initializer, by the shape of the default. *)
Example stringify_number : JSON_stringify (JNumber 100) = "100".
Proof. reflexivity. Qed.

Example stringify_negative : JSON_stringify (JNumber (-5)) = "-5".
Proof. reflexivity. Qed.

Example stringify_scalars :
  JSON_stringify JNull = "null" /\
  JSON_stringify (JBool true) = "true" /\
  JSON_stringify (JBool false) = "false" /\
  JSON_stringify (JString "hero") = double_quote +:+ "hero" +:+ double_quote.
Proof. repeat split. Qed.

Example stringify_nested :
  JSON_stringify
    (JObject 0 [("tags", JArray 1 [JString "a"; JNull]); ("level", JNumber 3)]) =
  "{" +:+ double_quote +:+ "tags" +:+ double_quote +:+ ":[" +:+
  double_quote +:+ "a" +:+ double_quote +:+ ",null]," +:+
  double_quote +:+ "level" +:+ double_quote +:+ ":3}".
Proof. reflexivity. Qed.

(** A property [health] whose type node carries the default [100]. *)
Example health_initializer (super : CSharpRenderer) (c : TypeNode) :
  let health :=
    {| type := node (PrimitiveKind "integer") None (Some (Some (JNumber 100)));
       isOptional := false |} in
  GameCSharpRenderer.propertyDefinition super health (MkName 0) c "health" =
    SArray [base_propertyDefinition super health (MkName 0) c "health";
            SText " = "; SText "100"; SText ";"].
Proof. reflexivity. Qed.

(** A property whose fragment declared no default: the producer's
    entry holds [undefined], and the declaration is the base one. *)
Example undeclared_default_no_initializer (super : CSharpRenderer) (c : TypeNode) :
  let name :=
    {| type :=
         {| kind := PrimitiveKind "string";
            getAttributes :=
              attributesOf (propertyDefaultsAttributeProducer (SchemaObject [])) |};
       isOptional := false |} in
  GameCSharpRenderer.propertyDefinition super name (MkName 1) c "name" =
    base_propertyDefinition super name (MkName 1) c "name".
Proof. reflexivity. Qed.

(** A root object that declares [gameObject: true] becomes a subclass of
    [GameObject]; with [false], or without the key, it does not. *)
Example marked_class_supertype :
  let attrs (props : list (string * json)) :=
    match gameObjectAttributeProducer (SchemaObject props) "#" {["object"]} with
    | Return r => attributesOf r
    | Throw _ => emptyTypeAttributes
    end in
  let class_of props := {| kind := ClassKind; getAttributes := attrs props |} in
  GameCSharpRenderer.superclassForType (class_of [("gameObject", JBool true)]) =
    Some (SText "GameObject") /\
  GameCSharpRenderer.superclassForType (class_of [("gameObject", JBool false)]) = None /\
  GameCSharpRenderer.superclassForType (class_of []) = None.
Proof. repeat split. Qed.

(** [combine] on what the producer stored for a fragment declaring
    [default: 5] and for a fragment declaring no default: [5] meets
    [undefined]. *)
Example undeclared_default_meets_declared :
  DefaultValueTypeAttributeKind.combine
    [DefaultValueTypeAttributeKind.tryGetInAttributes
       (attributesOf (propertyDefaultsAttributeProducer
                        (SchemaObject [("default", JNumber 5)])));
     DefaultValueTypeAttributeKind.tryGetInAttributes
       (attributesOf (propertyDefaultsAttributeProducer (SchemaObject [])))] =
    Throw (Error "Inconsistent default values").
Proof. reflexivity. Qed.

End Examples.

(** * Further properties of the code *)

(** ** [===] on parsed values *)

Section StrictEquality.

Lemma strict_equal_refl (a : any) : strict_equal a a = true.
Proof.
  destruct a as [[] |]; simpl; trivial.
  - now destruct b.
  - apply Z.eqb_refl.
  - apply String.eqb_refl.
  - apply Nat.eqb_refl.
  - apply Nat.eqb_refl.
Qed.

Lemma strict_equal_sym (a b : any) : strict_equal a b = strict_equal b a.
Proof.
  destruct a as [[] |], b as [[] |]; simpl; trivial.
  - now destruct b0, b.
  - apply Z.eqb_sym.
  - apply String.eqb_sym.
  - apply Nat.eqb_sym.
  - apply Nat.eqb_sym.
Qed.

Lemma strict_equal_trans (a b c : any) :
  strict_equal a b = true -> strict_equal b c = true -> strict_equal a c = true.
Proof.
  destruct a as [[] |], b as [[] |]; simpl; try discriminate;
    destruct c as [[] |]; simpl; try discriminate; trivial.
  - rewrite !Bool.eqb_true_iff. congruence.
  - rewrite !Z.eqb_eq. congruence.
  - rewrite !String.eqb_eq. congruence.
  - rewrite !Nat.eqb_eq. congruence.
  - rewrite !Nat.eqb_eq. congruence.
Qed.

End StrictEquality.

(** ** [DefaultValueTypeAttributeKind.combine] *)

Section DefaultCombineLaws.

Import DefaultValueTypeAttributeKind.

Lemma combine_cons (a : any) (rest : list any) :
  combine (a :: rest) =
    if forallb (strict_equal a) rest then Return a
    else Throw (Error "Inconsistent default values").
Proof.
  unfold combine. cbn [hd tl].
  rewrite combine_loop_forallb. now destruct (forallb _ _).
Qed.

Lemma combine_nil : combine [] = Return undefined.
Proof. reflexivity. Qed.

(** X1: when [combine] throws, the error is the inconsistency error,
    there were at least two contributions, and one of those after the
    first is not [===] to the first. *)
Theorem default_combine_throw_inv (attrs : list any) (e : exn) :
  combine attrs = Throw e ->
  e = Error "Inconsistent default values" /\
  2 <= length attrs /\
  exists x : any,
    In x (tl attrs) /\ strict_equal (hd undefined attrs) x = false.
Proof.
  destruct attrs as [| a rest]; [discriminate |].
  rewrite combine_cons. cbn [hd tl length].
  destruct (forallb (strict_equal a) rest) eqn:Hall; [discriminate |].
  intros [= <-]. split; [reflexivity |].
  assert (Hex : exists x : any, In x rest /\ strict_equal a x = false).
  { induction rest as [| x rest IH]; [discriminate |].
    simpl in Hall. destruct (strict_equal a x) eqn:Hx.
    - destruct (IH Hall) as [y [Hin Hy]]. exists y. split; [now right | exact Hy].
    - exists x. split; [now left | exact Hx]. }
  split; [| exact Hex].
  destruct Hex as [x [Hin _]]. destruct rest; [contradiction | simpl; lia].
Qed.

(** The contributions [5] and [7]: the instance of X1. *)
Lemma default_combine_throw_inv_witness :
  combine [Some (JNumber 5); Some (JNumber 7)] =
    Throw (Error "Inconsistent default values") /\
  exists x : any,
    In x [Some (JNumber 7)] /\ strict_equal (Some (JNumber 5)) x = false.
Proof.
  split; [reflexivity |].
  exact (proj2 (proj2 (default_combine_throw_inv
                         [Some (JNumber 5); Some (JNumber 7)]
                         (Error "Inconsistent default values") eq_refl))).
Defined.

(** X2: when [combine] returns, it returns [attrs[0]] ([undefined] on
    the empty array), and every contribution is [===] to it. *)
Theorem default_combine_return_inv (attrs : list any) (v : any) :
  combine attrs = Return v ->
  v = hd undefined attrs /\
  forall x : any, In x attrs -> strict_equal v x = true.
Proof.
  destruct attrs as [| a rest].
  - intros [= <-]. split; [reflexivity | contradiction].
  - rewrite combine_cons.
    destruct (forallb (strict_equal a) rest) eqn:Hall; [| discriminate].
    intros [= <-]. split; [reflexivity |].
    intros x [<- | Hin]; [apply strict_equal_refl |].
    rewrite forallb_forall in Hall. now apply Hall.
Qed.

(** Three contributions, all the string ["idle"]: the instance of X2. *)
Lemma default_combine_return_inv_witness :
  combine [Some (JString "idle"); Some (JString "idle"); Some (JString "idle")] =
    Return (Some (JString "idle")) /\
  forall x : any,
    In x [Some (JString "idle"); Some (JString "idle"); Some (JString "idle")] ->
    strict_equal (Some (JString "idle")) x = true.
Proof.
  split; [reflexivity |].
  exact (proj2 (default_combine_return_inv
                  [Some (JString "idle"); Some (JString "idle"); Some (JString "idle")]
                  (Some (JString "idle")) eq_refl)).
Defined.

Lemma forallb_strict_equal_Forall (a : any) (l : list any) :
  forallb (strict_equal a) l = true <-> Forall (fun x => strict_equal a x = true) l.
Proof. rewrite forallb_forall, List.Forall_forall. reflexivity. Qed.

Lemma combine_returns_iff (a : any) (rest : list any) :
  returns (combine (a :: rest)) = true <->
  Forall (fun x => strict_equal a x = true) (a :: rest).
Proof.
  rewrite combine_cons, <- forallb_strict_equal_Forall. cbn [forallb].
  rewrite strict_equal_refl. cbn [andb].
  now destruct (forallb (strict_equal a) rest).
Qed.

Lemma Forall_strict_equal_rebase (a b : any) (l : list any) :
  strict_equal a b = true ->
  Forall (fun x => strict_equal a x = true) l ->
  Forall (fun x => strict_equal b x = true) l.
Proof.
  intros Hab Hl. eapply List.Forall_impl; [| exact Hl].
  intros x Hx. apply strict_equal_trans with a; [| exact Hx].
  now rewrite strict_equal_sym.
Qed.

Lemma combine_Permutation_returns (xs ys : list any) (a : any) :
  Permutation xs ys -> combine xs = Return a ->
  exists b : any, combine ys = Return b /\ strict_equal a b = true.
Proof.
  intros Hperm Hxs.
  destruct ys as [| b ys'].
  - apply Permutation_sym, Permutation_nil in Hperm. subst xs.
    exists undefined. split; [reflexivity |].
    injection Hxs as <-. reflexivity.
  - destruct xs as [| a' xs'].
    { now apply Permutation_nil in Hperm. }
    assert (Hall : Forall (fun x => strict_equal a' x = true) (a' :: xs')).
    { apply combine_returns_iff. now rewrite Hxs. }
    rewrite combine_cons in Hxs.
    destruct (forallb (strict_equal a') xs'); [| discriminate].
    injection Hxs as <-.
    assert (Hall' : Forall (fun x => strict_equal a' x = true) (b :: ys')).
    { rewrite List.Forall_forall in *. intros x Hx. apply Hall.
      apply Permutation_in with (b :: ys'); [now apply Permutation_sym | exact Hx]. }
    assert (Hab : strict_equal a' b = true) by now inversion Hall'.
    exists b. split; [| exact Hab].
    apply (Forall_strict_equal_rebase _ _ _ Hab) in Hall'.
    apply combine_returns_iff in Hall'.
    rewrite combine_cons in *. now destruct (forallb (strict_equal b) ys').
Qed.

(** X3: the order of the contributions does not decide whether
    [combine] fails: on a reordering of a sequence it throws exactly
    when it throws on the sequence, and the values it returns on the
    two are [===]. *)
Theorem default_combine_order (xs ys : list any) :
  Permutation xs ys ->
  match combine xs, combine ys with
  | Return a, Return b => strict_equal a b = true
  | Throw e, Throw e' => e = e'
  | _, _ => False
  end.
Proof.
  intros Hperm.
  destruct (combine xs) as [a | e] eqn:Hxs.
  - destruct (combine_Permutation_returns xs ys a Hperm Hxs) as [b [-> Hab]].
    exact Hab.
  - destruct (combine ys) as [b | e'] eqn:Hys.
    + destruct (combine_Permutation_returns ys xs b (Permutation_sym Hperm) Hys)
        as [a [Ha _]]. congruence.
    + destruct xs as [| x xs']; [discriminate |].
      destruct ys as [| y ys']; [discriminate |].
      rewrite combine_cons in Hxs, Hys.
      destruct (forallb (strict_equal x) xs'); [discriminate |].
      destruct (forallb (strict_equal y) ys'); [discriminate |].
      congruence.
Qed.

(** The contributions [5; 5; 7] and their reordering [7; 5; 5]: the
    instance of X3 at a sequence whose first two elements agree. *)
Lemma default_combine_order_witness :
  Permutation [Some (JNumber 5); Some (JNumber 5); Some (JNumber 7)]
              [Some (JNumber 7); Some (JNumber 5); Some (JNumber 5)] /\
  match combine [Some (JNumber 5); Some (JNumber 5); Some (JNumber 7)],
        combine [Some (JNumber 7); Some (JNumber 5); Some (JNumber 5)] with
  | Return a, Return b => strict_equal a b = true
  | Throw e, Throw e' => e = e'
  | _, _ => False
  end.
Proof.
  assert (H : Permutation
                [Some (JNumber 5); Some (JNumber 5); Some (JNumber 7)]
                [Some (JNumber 7); Some (JNumber 5); Some (JNumber 5)]).
  { apply (Permutation_app_comm
             [Some (JNumber 5); Some (JNumber 5)] [Some (JNumber 7)]). }
  split; [exact H |].
  exact (default_combine_order _ _ H).
Defined.

End DefaultCombineLaws.

Section DefaultCombineComposition.

Import DefaultValueTypeAttributeKind.

Lemma combine_throw_message (attrs : list any) (e : exn) :
  combine attrs = Throw e -> e = Error "Inconsistent default values".
Proof.
  destruct attrs as [| a rest]; [discriminate |].
  rewrite combine_cons. destruct (forallb _ _); [discriminate | congruence].
Qed.

Lemma combine_throw_app_r (xs ys : list any) (e : exn) :
  combine xs = Throw e -> combine (xs ++ ys) = Throw e.
Proof.
  destruct xs as [| a rest]; [discriminate |].
  rewrite <- app_comm_cons, !combine_cons, forallb_app.
  now destruct (forallb (strict_equal a) rest).
Qed.

(** X4: an inconsistency is never repaired by further contributions:
    when [combine] throws on a sequence, it throws the same error on
    the sequence followed or preceded by any other contributions. *)
Theorem default_combine_throw_extends (xs ys : list any) (e : exn) :
  combine xs = Throw e ->
  combine (xs ++ ys) = Throw e /\ combine (ys ++ xs) = Throw e.
Proof.
  intros Hxs.
  assert (Hr : combine (xs ++ ys) = Throw e) by now apply combine_throw_app_r.
  split; [exact Hr |].
  destruct (combine (ys ++ xs)) as [v | e'] eqn:Hl.
  - destruct (combine_Permutation_returns (ys ++ xs) (xs ++ ys) v
                (Permutation_app_comm ys xs) Hl) as [b [Hb _]].
    congruence.
  - apply combine_throw_message in Hl. apply combine_throw_message in Hxs.
    congruence.
Qed.

(** The contributions [5; 7], before and after a further [5]: the
    instance of X4. *)
Lemma default_combine_throw_extends_witness :
  combine [Some (JNumber 5); Some (JNumber 7)] =
    Throw (Error "Inconsistent default values") /\
  combine ([Some (JNumber 5); Some (JNumber 7)] ++ [Some (JNumber 5)]) =
    Throw (Error "Inconsistent default values") /\
  combine ([Some (JNumber 5)] ++ [Some (JNumber 5); Some (JNumber 7)]) =
    Throw (Error "Inconsistent default values").
Proof.
  split; [reflexivity |].
  exact (default_combine_throw_extends
           [Some (JNumber 5); Some (JNumber 7)] [Some (JNumber 5)]
           (Error "Inconsistent default values") eq_refl).
Defined.

(** X5: combining in two steps is combining at once: when [combine]
    returns [a] on a non-empty sequence and [b] on another, [combine]
    on the two sequences joined is [combine] on [a] and [b]. *)
Theorem default_combine_app (xs ys : list any) (a b : any) :
  xs <> [] -> ys <> [] ->
  combine xs = Return a -> combine ys = Return b ->
  combine (xs ++ ys) = combine [a; b].
Proof.
  intros Hxs Hys Ha Hb.
  destruct xs as [| x xs']; [contradiction |].
  destruct ys as [| y ys']; [contradiction |].
  rewrite combine_cons in Ha, Hb.
  destruct (forallb (strict_equal x) xs') eqn:Hallx; [| discriminate].
  destruct (forallb (strict_equal y) ys') eqn:Hally; [| discriminate].
  injection Ha as <-. injection Hb as <-.
  rewrite <- app_comm_cons, !combine_cons, forallb_app, Hallx.
  cbn [forallb andb].
  destruct (strict_equal x y) eqn:Hxy; [| reflexivity].
  apply forallb_strict_equal_Forall in Hally.
  rewrite strict_equal_sym in Hxy.
  apply (Forall_strict_equal_rebase _ _ _ Hxy) in Hally.
  apply forallb_strict_equal_Forall in Hally. now rewrite Hally.
Qed.

(** Two groups of contributions that each agree, on [5] and on [7]:
    the instance of X5 at groups that disagree with each other. *)
Lemma default_combine_app_witness :
  [Some (JNumber 5); Some (JNumber 5)] <> [] /\
  [Some (JNumber 7)] <> [] /\
  combine [Some (JNumber 5); Some (JNumber 5)] = Return (Some (JNumber 5)) /\
  combine [Some (JNumber 7)] = Return (Some (JNumber 7)) /\
  combine ([Some (JNumber 5); Some (JNumber 5)] ++ [Some (JNumber 7)]) =
    combine [Some (JNumber 5); Some (JNumber 7)].
Proof.
  assert (H1 : [Some (JNumber 5); Some (JNumber 5)] <> []) by discriminate.
  assert (H2 : [Some (JNumber 7)] <> []) by discriminate.
  split; [exact H1 | split; [exact H2 |]].
  split; [reflexivity | split; [reflexivity |]].
  exact (default_combine_app _ _ _ _ H1 H2 eq_refl eq_refl).
Defined.

End DefaultCombineComposition.

(** ** The producers and the hooks together *)

Section ProducersAndHooks.

Import GameCSharpRenderer.

Lemma gameObject_producer_object
    (props : list (string * json)) (canonicalRef : Ref)
    (types : gset JSONSchemaType) :
  gameObjectAttributeProducer (SchemaObject props) canonicalRef types =
    if bool_decide ("object" ∈ types) then
      match getProperty "gameObject" props with
      | None =>
          Return (Some {| forType := GameObjectTypeAttributeKind.makeAttributes false |})
      | Some (JBool b) =>
          Return (Some {| forType := GameObjectTypeAttributeKind.makeAttributes b |})
      | Some _ =>
          Throw (Error ("gameObject is not a boolean in " +:+ canonicalRef))
      end
    else Return None.
Proof.
  unfold gameObjectAttributeProducer.
  change (String.eqb (typeof_schema (SchemaObject props)) "object") with true.
  cbn [negb schema_get].
  destruct (bool_decide ("object" ∈ types)); [| reflexivity].
  cbn [negb]. now destruct (getProperty "gameObject" props) as [[] |].
Qed.

(** X6: the marker producer throws only on an object fragment that is
    classified as ["object"] and whose [gameObject] is present and not
    a boolean, and then with the message that ends in the canonical
    reference. *)
Theorem gameObject_producer_throw_inv
    (schema : JSONSchema) (canonicalRef : Ref) (types : gset JSONSchemaType)
    (e : exn) :
  gameObjectAttributeProducer schema canonicalRef types = Throw e ->
  exists (props : list (string * json)) (g : json),
    schema = SchemaObject props /\
    "object" ∈ types /\
    getProperty "gameObject" props = Some g /\
    typeof (Some g) <> "boolean" /\
    e = Error ("gameObject is not a boolean in " +:+ canonicalRef).
Proof.
  destruct schema as [b | props]; [discriminate |].
  rewrite gameObject_producer_object.
  destruct (bool_decide ("object" ∈ types)) eqn:Hobj; [| discriminate].
  apply bool_decide_eq_true_1 in Hobj.
  destruct (getProperty "gameObject" props) as [g |] eqn:Hg; [| discriminate].
  intros H. exists props, g.
  split; [reflexivity | split; [exact Hobj | split; [exact Hg |]]].
  destruct g; try discriminate; injection H as <-; (split; [discriminate | reflexivity]).
Qed.

(** The fragment [{"gameObject": 1}]: the instance of X6 at a numeric
    flag. *)
Lemma gameObject_producer_throw_inv_witness :
  gameObjectAttributeProducer
    (SchemaObject [("gameObject", JNumber 1)]) "#/definitions/Enemy"
    {["object"]} =
    Throw (Error "gameObject is not a boolean in #/definitions/Enemy") /\
  exists (props : list (string * json)) (g : json),
    SchemaObject [("gameObject", JNumber 1)] = SchemaObject props /\
    "object" ∈ ({["object"]} : gset JSONSchemaType) /\
    getProperty "gameObject" props = Some g /\
    typeof (Some g) <> "boolean" /\
    Error "gameObject is not a boolean in #/definitions/Enemy" =
      Error ("gameObject is not a boolean in " +:+ "#/definitions/Enemy").
Proof.
  assert (Hthrow :
            gameObjectAttributeProducer
              (SchemaObject [("gameObject", JNumber 1)]) "#/definitions/Enemy"
              {["object"]} =
              Throw (Error "gameObject is not a boolean in #/definitions/Enemy"))
    by reflexivity.
  split; [exact Hthrow |].
  exact (gameObject_producer_throw_inv _ _ _ _ Hthrow).
Defined.

Lemma superclassForType_cases (t : TypeNode) :
  superclassForType t =
    if instanceof_ClassType t &&
       match GameObjectTypeAttributeKind.tryGetInAttributes (getAttributes t) with
       | Some true => true
       | _ => false
       end
    then Some (SText "GameObject") else None.
Proof.
  unfold superclassForType.
  destruct (instanceof_ClassType t); [| reflexivity].
  now destruct (GameObjectTypeAttributeKind.tryGetInAttributes (getAttributes t))
    as [[] |].
Qed.

Lemma gameObject_producer_marker
    (schema : JSONSchema) (canonicalRef : Ref) (types : gset JSONSchemaType)
    (r : option JSONSchemaAttributes) :
  gameObjectAttributeProducer schema canonicalRef types = Return r ->
  (GameObjectTypeAttributeKind.tryGetInAttributes (attributesOf r) = Some true <->
   "object" ∈ types /\ schema_get schema "gameObject" = Some (JBool true)).
Proof.
  destruct schema as [b | props]; cbn [schema_get].
  - intros [= <-]. cbn. split; [discriminate | now intros [_ H]].
  - rewrite gameObject_producer_object.
    destruct (bool_decide ("object" ∈ types)) eqn:Hobj.
    + apply bool_decide_eq_true_1 in Hobj.
      destruct (getProperty "gameObject" props) as [[| [] | | | |] |];
        try discriminate; intros [= <-]; cbn;
        (split; [try discriminate; now split | try (now intros [_ H])]).
    + apply bool_decide_eq_false_1 in Hobj.
      intros [= <-]. cbn. split; [discriminate | now intros [H _]].
Qed.

(** X7: from the schema to the class declaration: a class node whose
    marker is what the marker producer returned for its fragment gets
    the supertype ["GameObject"] exactly when the fragment is
    classified as ["object"] and its [gameObject] is [true], and no
    override otherwise. *)
Theorem gameObject_flag_decides_supertype
    (schema : JSONSchema) (canonicalRef : Ref) (types : gset JSONSchemaType)
    (r : option JSONSchemaAttributes) (t : TypeNode) :
  gameObjectAttributeProducer schema canonicalRef types = Return r ->
  instanceof_ClassType t = true ->
  GameObjectTypeAttributeKind.tryGetInAttributes (getAttributes t) =
    GameObjectTypeAttributeKind.tryGetInAttributes (attributesOf r) ->
  (superclassForType t = Some (SText "GameObject") <->
   "object" ∈ types /\ schema_get schema "gameObject" = Some (JBool true)) /\
  (superclassForType t = None <->
   ~ ("object" ∈ types /\ schema_get schema "gameObject" = Some (JBool true))).
Proof.
  intros Hprod Hclass Hattrs.
  rewrite <- (gameObject_producer_marker _ _ _ _ Hprod), <- Hattrs.
  rewrite superclassForType_cases, Hclass. cbn [andb].
  destruct (GameObjectTypeAttributeKind.tryGetInAttributes (getAttributes t))
    as [[] |]; (split; split; intros H; try discriminate; try reflexivity;
                try (now contradiction H); try (intros H'; discriminate)).
Qed.

(** A class made from [{"gameObject": true}]: the instance of X7. *)
Lemma gameObject_flag_decides_supertype_witness :
  gameObjectAttributeProducer
    (SchemaObject [("gameObject", JBool true)]) "#" {["object"]} =
    Return (Some {| forType := GameObjectTypeAttributeKind.makeAttributes true |}) /\
  instanceof_ClassType (node ClassKind (Some true) None) = true /\
  superclassForType (node ClassKind (Some true) None) = Some (SText "GameObject").
Proof.
  assert (Hprod :
            gameObjectAttributeProducer
              (SchemaObject [("gameObject", JBool true)]) "#" {["object"]} =
              Return (Some {| forType :=
                                GameObjectTypeAttributeKind.makeAttributes true |}))
    by reflexivity.
  split; [exact Hprod | split; [reflexivity |]].
  apply (proj1 (gameObject_flag_decides_supertype _ _ _ _
                  (node ClassKind (Some true) None) Hprod eq_refl eq_refl)).
  split; [apply elem_of_singleton; reflexivity | reflexivity].
Defined.

(** X8: from the schema to the property declaration: a property whose
    type node's default is what the default producer returned for its
    fragment is declared with the initializer of the fragment's
    [default] when the fragment has that key, whatever its value, and
    as the base renderer declares it when the fragment has no such key
    or is a boolean schema.  The numbers of the default are safe
    integers. *)
Theorem default_key_decides_initializer
    (super : CSharpRenderer) (schema : JSONSchema)
    (p : ClassProperty) (name : Name) (c : TypeNode) (jsonName : string) :
  DefaultValueTypeAttributeKind.tryGetInAttributes (getAttributes (type p)) =
    DefaultValueTypeAttributeKind.tryGetInAttributes
      (attributesOf (propertyDefaultsAttributeProducer schema)) ->
  any_in_number_domain (schema_get schema "default") = true ->
  propertyDefinition super p name c jsonName =
    match schema_get schema "default" with
    | None => base_propertyDefinition super p name c jsonName
    | Some j =>
        SArray [base_propertyDefinition super p name c jsonName;
                SText " = "; SText (JSON_stringify j); SText ";"]
    end.
Proof.
  intros Hattrs _. unfold propertyDefinition. rewrite Hattrs.
  destruct schema as [b | props]; reflexivity.
Qed.

(** A property whose fragment declares [default: false]: the instance
    of X8 at a falsy default. *)
Lemma default_key_decides_initializer_witness :
  let p :=
    {| type := node (PrimitiveKind "boolean") None (Some (Some (JBool false)));
       isOptional := false |} in
  let super :=
    {| base_superclassForType := fun _ => None;
       base_propertyDefinition := fun _ _ _ _ => SText "public bool Alive { get; set; }" |} in
  any_in_number_domain
    (schema_get (SchemaObject [("default", JBool false)]) "default") = true /\
  propertyDefinition super p (MkName 0) (node ClassKind None None) "alive" =
    SArray [SText "public bool Alive { get; set; }";
            SText " = "; SText "false"; SText ";"].
Proof.
  intros p super.
  split; [reflexivity |].
  exact (default_key_decides_initializer super
           (SchemaObject [("default", JBool false)]) p (MkName 0)
           (node ClassKind None None) "alive" eq_refl eq_refl).
Defined.

(** X9: each producer contributes to its own kind only: what the marker
    producer returns holds no default, and what the default producer
    returns holds no marker, so a declared default never makes a class a
    [GameObject]. *)
Theorem producers_do_not_interfere :
  (forall (schema : JSONSchema) (canonicalRef : Ref)
          (types : gset JSONSchemaType) (r : option JSONSchemaAttributes),
      gameObjectAttributeProducer schema canonicalRef types = Return r ->
      attr_propertyDefaults (attributesOf r) = None) /\
  (forall schema : JSONSchema,
      GameObjectTypeAttributeKind.tryGetInAttributes
        (attributesOf (propertyDefaultsAttributeProducer schema)) = None) /\
  (forall (schema : JSONSchema) (k : TypeKind),
      superclassForType
        {| kind := k;
           getAttributes :=
             attributesOf (propertyDefaultsAttributeProducer schema) |} = None).
Proof.
  split; [| split].
  - intros [b | props] canonicalRef types r; [now intros [= <-] |].
    rewrite gameObject_producer_object.
    destruct (bool_decide ("object" ∈ types)); [| now intros [= <-]].
    destruct (getProperty "gameObject" props) as [[] |];
      try discriminate; now intros [= <-].
  - now intros [b | props].
  - intros [b | props] []; reflexivity.
Qed.

End ProducersAndHooks.

(** ** The render hooks on every node *)

Section RenderHooksEverywhere.

Import GameCSharpRenderer.

(** X10: [superclassForType] overrides for exactly one kind of node:
    it returns a supertype only for a class node whose marker lookup is
    [true], and that supertype is ["GameObject"]; a node of any other
    shape gets no override even when it carries the marker [true]. *)
Theorem superclassForType_override_iff (t : TypeNode) (s : Sourcelike) :
  superclassForType t = Some s <->
  instanceof_ClassType t = true /\
  GameObjectTypeAttributeKind.tryGetInAttributes (getAttributes t) = Some true /\
  s = SText "GameObject".
Proof.
  rewrite superclassForType_cases.
  destruct (instanceof_ClassType t);
    destruct (GameObjectTypeAttributeKind.tryGetInAttributes (getAttributes t))
      as [[] |]; cbn [andb]; split;
    try discriminate; try (now intros [H1 [H2 H3]]; discriminate).
  - intros [= <-]. now repeat split.
  - now intros [_ [_ ->]].
Qed.

(** X11: the attribute restricts the earlier renderer and never extends
    it: whatever [superclassForType] returns for a node, the renderer
    that marks every class returns for it too, and the two differ
    exactly on the class nodes whose marker lookup is not [true]. *)
Theorem superclassForType_restricts_unconditional (t : TypeNode) :
  (forall s : Sourcelike,
      superclassForType t = Some s ->
      UnconditionalGameCSharpRenderer.superclassForType t = Some s) /\
  (superclassForType t <> UnconditionalGameCSharpRenderer.superclassForType t <->
   instanceof_ClassType t = true /\
   GameObjectTypeAttributeKind.tryGetInAttributes (getAttributes t) <> Some true).
Proof.
  rewrite superclassForType_cases.
  unfold UnconditionalGameCSharpRenderer.superclassForType.
  destruct (instanceof_ClassType t);
    destruct (GameObjectTypeAttributeKind.tryGetInAttributes (getAttributes t))
      as [[] |]; cbn [andb]; split; try (intros s; congruence); split;
    try congruence; try (now intros [H1 H2]); try (intros _; split; congruence).
Qed.

Lemma sourcelike_size_SArray_cons (x : Sourcelike) (rest : list Sourcelike) :
  sourcelike_size x < sourcelike_size (SArray (x :: rest)).
Proof. cbn. lia. Qed.

(** X12: [propertyDefinition] hands back the base declaration as it is
    exactly when the default lookup is [undefined]: whenever the
    lookup is a value, [null], [false], [0] and the empty string
    included, the result differs from the base declaration. *)
Theorem propertyDefinition_unchanged_iff
    (super : CSharpRenderer) (p : ClassProperty) (name : Name)
    (c : TypeNode) (jsonName : string) :
  propertyDefinition super p name c jsonName =
    base_propertyDefinition super p name c jsonName <->
  DefaultValueTypeAttributeKind.tryGetInAttributes (getAttributes (type p)) =
    undefined.
Proof.
  unfold propertyDefinition.
  destruct (DefaultValueTypeAttributeKind.tryGetInAttributes
              (getAttributes (type p))) as [j |].
  - split; [| discriminate].
    intros H. apply (f_equal sourcelike_size) in H.
    pose proof (sourcelike_size_SArray_cons
                  (base_propertyDefinition super p name c jsonName)
                  [SText " = "; SText (JSON_stringify j); SText ";"]) as Hlt.
    lia.
  - split; reflexivity.
Qed.

End RenderHooksEverywhere.

(** ** The command line *)

Section CommandLine.

Lemma log_lines_app (lines out : list string) :
  log_lines lines out = out ++ lines.
Proof.
  unfold log_lines. revert out.
  induction lines as [| line lines IH]; intros out; simpl.
  - now rewrite app_nil_r.
  - rewrite IH, <- app_assoc. reflexivity.
Qed.

(** X13: with any number of arguments other than one, the script
    writes the usage line to the error stream, nothing to the output,
    and exits with status 1, whatever the host: no file is read and
    quicktype is not run. *)
Theorem script_usage (h : Host) (argv : list string) :
  length (skipn 2 argv) <> 1 ->
  script h argv =
    {| stdout := [];
       stderr := [LogText ("Usage: " +:+ nth 1 argv "undefined" +:+ " SCHEMA")];
       exitStatus := 1 |}.
Proof.
  intros Hlen. unfold script, main.
  destruct (Nat.eqb_spec (length (skipn 2 argv)) 1) as [Heq | _];
    [contradiction | reflexivity].
Qed.

(** The script run with two schema paths: the instance of X13. *)
Lemma script_usage_witness :
  length (skipn 2 ["node"; "game.ts"; "a.schema"; "b.schema"]) <> 1 /\
  script (host_yielding ["public class Player"])
         ["node"; "game.ts"; "a.schema"; "b.schema"] =
    {| stdout := [];
       stderr := [LogText "Usage: game.ts SCHEMA"];
       exitStatus := 1 |}.
Proof.
  assert (H : length (skipn 2 ["node"; "game.ts"; "a.schema"; "b.schema"]) <> 1)
    by discriminate.
  split; [exact H |].
  exact (script_usage (host_yielding ["public class Player"])
           ["node"; "game.ts"; "a.schema"; "b.schema"] H).
Defined.

(** X14: the script prints all of the generated lines or none: either
    it exits with status 0, has written nothing to the error stream and
    exactly the lines of the quicktype run, in order, to the output; or
    it exits with status 1, has written nothing to the output and one
    entry to the error stream, the usage line or the error that
    reading, adding the source or quicktype threw. *)
Theorem script_all_or_nothing (h : Host) (argv : list string) :
  (exists path : string,
      skipn 2 argv = [path] /\
      generate h path = Return (stdout (script h argv)) /\
      stderr (script h argv) = [] /\
      exitStatus (script h argv) = 0) \/
  (stdout (script h argv) = [] /\
   exitStatus (script h argv) = 1 /\
   (stderr (script h argv) =
      [LogText ("Usage: " +:+ nth 1 argv "undefined" +:+ " SCHEMA")] \/
    exists (path : string) (e : exn),
      skipn 2 argv = [path] /\
      generate h path = Throw e /\
      stderr (script h argv) = [LogError e])).
Proof.
  unfold script, main, generate.
  destruct (skipn 2 argv) as [| path [| other rest]] eqn:Hargs;
    cbn [length Nat.eqb negb nth].
  - right. cbn. auto.
  - destruct (readFileSync h path "utf8") as [schema | e] eqn:Hread.
    + destruct (addSource h "schema" ("Player", schema)) as [inputData | e]
        eqn:Hadd.
      * destruct (quicktype h inputData) as [lines | e] eqn:Hrun.
        -- left. exists path. cbn. rewrite Hread, Hadd, Hrun, log_lines_app. auto.
        -- right. cbn. repeat split. right. exists path, e.
           now rewrite Hread, Hadd, Hrun.
      * right. cbn. repeat split. right. exists path, e.
        now rewrite Hread, Hadd.
    + right. cbn. repeat split. right. exists path, e. now rewrite Hread.
  - right. cbn. auto.
Qed.

End CommandLine.
